(** * awstempcreds: the temporary-credentials provider

    A shallow embedding of [aws-temp-creds.go].  The provider is a mutable
    struct reached through a pointer; its two methods, [Refresh] and
    [Credentials], read the wall clock, ask the operating system for the
    host name, call the STS [AssumeRole] operation and write to the
    standard logger.  All of that is threaded through one machine state:
    the struct itself and a [World] that answers the outside calls and
    records what was sent out.  A nil-pointer dereference is a run-time
    panic, so a computation ends either by returning or by panicking; in
    both cases the writes made so far remain in the struct.

    The file exists in two revisions that differ only in the log line
    written when a refresh fails; the one with the log line is embedded,
    and only the last theorem of the file, which is about that line,
    depends on what was logged. *)

From Stdlib Require Import ZArith String Ascii List Bool Lia.
From Stdlib Require Import DecimalString DecimalZ.
Import ListNotations.

Local Open Scope Z_scope.

(** ** Machine integers *)

(** Two's-complement wrap-around of a mathematical integer to [w] bits. *)
Definition wrap (w : Z) (x : Z) : Z :=
  (x + 2 ^ (w - 1)) mod 2 ^ w - 2 ^ (w - 1).

Definition int64 : Z -> Z := wrap 64.
Definition int32 : Z -> Z := wrap 32.

Definition min_int64 : Z := - 2 ^ 63.
Definition max_int64 : Z := 2 ^ 63 - 1.

(** ** Go's [error] interface: nil, or a value with its [Error()] text. *)
Definition error : Type := option string.

(** ** Package time *)

Module time.

(** A [Duration] is an int64 count of nanoseconds. *)
Definition Duration : Type := Z.

Definition Nanosecond : Duration := 1.
Definition Microsecond : Duration := 1000 * Nanosecond.
Definition Millisecond : Duration := 1000 * Microsecond.
Definition Second : Duration := 1000 * Millisecond.
Definition Minute : Duration := 60 * Second.
Definition Hour : Duration := 60 * Minute.

(** An instant: [sec] is an int64 count of seconds since January 1 of
    year 1, 00:00:00 UTC, and [nsec] an int32 count of nanoseconds within
    that second.  The location pointer is left out: none of the
    operations below looks at it. *)
Record Time : Type := mkTime { sec : Z; nsec : Z }.

(** The zero value of the struct type, what an unset field holds. *)
Definition zero : Time := {| sec := 0; nsec := 0 |}.

Definition unixToInternal : Z :=
  (1969 * 365 + 1969 / 4 - 1969 / 100 + 1969 / 400) * 86400.
Definition internalToUnix : Z := - unixToInternal.

(** [time.Unix(s, 0)], for a second count that needs no normalising. *)
Definition Unix_at (s : Z) : Time :=
  {| sec := int64 (s + unixToInternal); nsec := 0 |}.

(** [t.After(u)] *)
Definition After (t u : Time) : bool :=
  (sec u <? sec t) || ((sec t =? sec u) && (nsec u <? nsec t)).

(** [t.Add(d)]: Go's [/] and [%] on integers truncate towards zero. *)
Definition Add (t : Time) (d : Duration) : Time :=
  let s := int64 (sec t + int64 (Z.quot d 1000000000)) in
  let n := int32 (nsec t + int32 (Z.rem d 1000000000)) in
  if 1000000000 <=? n then
    {| sec := int64 (s + 1); nsec := int32 (n - 1000000000) |}
  else if n <? 0 then
    {| sec := int64 (s - 1); nsec := int32 (n + 1000000000) |}
  else
    {| sec := s; nsec := n |}.

(** [t.Unix()] *)
Definition Unix (t : Time) : Z := int64 (sec t + internalToUnix).

End time.

(** ** Package aws *)

Module aws.

Record Config : Type := { Region : string }.

Record Credentials : Type :=
  { AccessKeyID : string;
    SecretAccessKey : string;
    SessionToken : string }.

(** [aws.Long] and [aws.String] return a pointer to a copy of their
    argument; a pointer that may be nil is an [option]. *)
Definition Long (v : Z) : option Z := Some v.
Definition String (v : string) : option string := Some v.

End aws.

(** ** Package sts *)

Module sts.

Record Credentials : Type :=
  { AccessKeyID : option string;
    Expiration : option time.Time;
    SecretAccessKey : option string;
    SessionToken : option string }.

(** The output of [AssumeRole]; [OutCredentials] is the struct's
    [Credentials] field. *)
Record AssumeRoleOutput : Type :=
  { OutCredentials : option Credentials;
    PackedPolicySize : option Z }.

(** The fields of the input that the provider sets; it leaves the
    others nil. *)
Record AssumeRoleInput : Type :=
  { DurationSeconds : option Z;
    RoleARN : option string;
    RoleSessionName : option string }.

End sts.

(** ** The provider struct *)

Record TempCredentialsProvider : Type :=
  { Region : string;
    Duration : time.Duration;
    RoleARN : string;
    role : option sts.AssumeRoleOutput;
    nextRefresh : time.Time }.

(** A provider as a caller builds it: the exported fields set, the
    unexported ones at their zero values. *)
Definition fresh_provider (region : string) (d : time.Duration) (arn : string)
  : TempCredentialsProvider :=
  {| Region := region; Duration := d; RoleARN := arn;
     role := None; nextRefresh := time.zero |}.

Definition with_role (r : option sts.AssumeRoleOutput)
  (p : TempCredentialsProvider) : TempCredentialsProvider :=
  {| Region := Region p; Duration := Duration p; RoleARN := RoleARN p;
     role := r; nextRefresh := nextRefresh p |}.

Definition with_nextRefresh (t : time.Time)
  (p : TempCredentialsProvider) : TempCredentialsProvider :=
  {| Region := Region p; Duration := Duration p; RoleARN := RoleARN p;
     role := role p; nextRefresh := t |}.

(** ** The world outside the provider *)

(** One request as it reaches the role-assumption service: the client's
    configuration and the operation's input. *)
Definition request : Type := (aws.Config * sts.AssumeRoleInput)%type.

(** What [AssumeRole] hands back: an output pointer and an error. *)
Definition reply : Type := (option sts.AssumeRoleOutput * error)%type.

Record World : Type :=
  { (** the value of the [n]-th reading of [time.Now()] *)
    clock : nat -> time.Time;
    (** how many readings have been taken *)
    reads : nat;
    (** the answer of [os.Hostname()] *)
    hostname : string * error;
    (** the service's answer to a request, given how many it has seen *)
    service : nat -> request -> reply;
    (** the requests sent so far, oldest first *)
    requests : list request;
    (** the lines handed to the standard logger, oldest first *)
    logged : list string }.

Definition tick (w : World) : World :=
  {| clock := clock w; reads := S (reads w); hostname := hostname w;
     service := service w; requests := requests w; logged := logged w |}.

Definition sent (q : request) (w : World) : World :=
  {| clock := clock w; reads := reads w; hostname := hostname w;
     service := service w; requests := requests w ++ [q];
     logged := logged w |}.

Definition wrote (line : string) (w : World) : World :=
  {| clock := clock w; reads := reads w; hostname := hostname w;
     service := service w; requests := requests w;
     logged := logged w ++ [line] |}.

(** ** Computations *)

Record Machine : Type :=
  { this : TempCredentialsProvider; world : World }.

Inductive outcome (A : Type) : Type :=
| Returned (a : A)
| Panicked.
Arguments Returned {A} a.
Arguments Panicked {A}.

Definition M (A : Type) : Type := Machine -> outcome A * Machine.

Definition ret {A : Type} (a : A) : M A := fun m => (Returned a, m).

Definition bind {A B : Type} (c : M A) (k : A -> M B) : M B :=
  fun m =>
    match c m with
    | (Returned a, m') => k a m'
    | (Panicked, m') => (Panicked, m')
    end.

Declare Scope go_scope.
Delimit Scope go_scope with go.
Notation "x <- c ;; k" := (bind c (fun x => k))
  (at level 100, c at next level, right associativity) : go_scope.
Notation "c ;; k" := (bind c (fun _ => k))
  (at level 100, right associativity) : go_scope.
Local Open Scope go_scope.

(** Reading a field of [p], and assigning to one. *)
Definition field {A : Type} (f : TempCredentialsProvider -> A) : M A :=
  fun m => (Returned (f (this m)), m).

Definition assign (f : TempCredentialsProvider -> TempCredentialsProvider)
  : M unit :=
  fun m => (Returned tt, {| this := f (this m); world := world m |}).

(** Following a pointer: nil panics. *)
Definition deref {A : Type} (x : option A) : M A :=
  match x with
  | Some a => ret a
  | None => fun m => (Panicked, m)
  end.

(** [time.Now()] *)
Definition time_Now : M time.Time :=
  fun m =>
    let w := world m in
    (Returned (clock w (reads w)), {| this := this m; world := tick w |}).

(** [os.Hostname()] *)
Definition os_Hostname : M (string * error) :=
  fun m => (Returned (hostname (world m)), m).

(** [sts.New(cfg)]: the client is its configuration. *)
Definition sts_New (cfg : aws.Config) : aws.Config := cfg.

(** [client.AssumeRole(input)]: one outbound call. *)
Definition sts_AssumeRole (client : aws.Config) (input : sts.AssumeRoleInput)
  : M reply :=
  fun m =>
    let w := world m in
    let q := (client, input) in
    (Returned (service w (length (requests w)) q),
     {| this := this m; world := sent q w |}).

(** [log.Printf]: the formatted line goes to the logger.  The prefix
    that the logger puts in front of it is not part of the model. *)
Definition log_Printf (line : string) : M unit :=
  fun m => (Returned tt, {| this := this m; world := wrote line (world m) |}).

(** ** Formatting *)

(** The verb [%d] on an int64. *)
Definition fmt_d (z : Z) : string := NilZero.string_of_int (Z.to_int z).

Definition newline : string := String (ascii_of_nat 10) EmptyString.

(** [fmt.Sprintf("temp-%s-%d", host, unix)] *)
Definition session_name (host : string) (unix : Z) : string :=
  ("temp-" ++ host ++ "-" ++ fmt_d unix)%string.

(** The text of a non-nil error under the verb [%s]. *)
Definition log_line (e : string) : string :=
  ("TempCredentialsProvider failed to refresh credentials: " ++ e
     ++ newline)%string.

(** ** The two methods *)

(** [p.Refresh()], lines 29 to 46: get a new role.  The arguments of the
    call on line 39 are evaluated in the order they are written, the
    clock reading last; the two results are assigned to [p.role] and
    [err] whatever they are. *)
Definition Refresh : M error :=
  (* 30 *) region <- field Region ;;
  let stsClient := sts_New {| aws.Region := region |} in
  (* 34 *) h <- os_Hostname ;;
  let hostname :=
    match snd h with
    | Some _ => "unknown"%string
    | None => fst h
    end in
  (* 40 *) d <- field Duration ;;
  (* 41 *) arn <- field RoleARN ;;
  (* 42 *) now <- time_Now ;;
  (* 39 *) r <- sts_AssumeRole stsClient
         {| sts.DurationSeconds := aws.Long (int64 (Z.quot d time.Second));
            sts.RoleARN := aws.String arn;
            sts.RoleSessionName :=
              aws.String (session_name hostname (time.Unix now)) |} ;;
  assign (with_role (fst r)) ;;
  ret (snd r).

(** The closing composite literal of [Credentials]: three pointers
    followed, each from [p.role.Credentials]. *)
Definition transpose : M (option aws.Credentials * error) :=
  r1 <- field role ;; o1 <- deref r1 ;; c1 <- deref (sts.OutCredentials o1) ;;
  ak <- deref (sts.AccessKeyID c1) ;;
  r2 <- field role ;; o2 <- deref r2 ;; c2 <- deref (sts.OutCredentials o2) ;;
  sk <- deref (sts.SecretAccessKey c2) ;;
  r3 <- field role ;; o3 <- deref r3 ;; c3 <- deref (sts.OutCredentials o3) ;;
  tok <- deref (sts.SessionToken c3) ;;
  ret (Some {| aws.AccessKeyID := ak;
               aws.SecretAccessKey := sk;
               aws.SessionToken := tok |}, None).

(** [p.Credentials()], lines 49 to 68: a pointer to an [aws.Credentials]
    and an error.  The early return on line 55 ends the call; both other
    paths fall through to the composite literal. *)
Definition Credentials : M (option aws.Credentials * error) :=
  (* 50 *) now <- time_Now ;;
  nr <- field nextRefresh ;;
  if time.After now nr then
    (* 51 *) err <- Refresh ;;
    match err with
    | Some e =>
        (* 54 *) log_Printf (log_line e) ;;
        (* 55 *) ret (None, err)
    | None =>
        (* 59 *) now' <- time_Now ;;
        d <- field Duration ;;
        assign (with_nextRefresh
                  (time.Add now' (int64 (d - 5 * time.Minute)))) ;;
        (* 63 *) transpose
    end
  else
    (* 63 *) transpose.

(** ** Reading the code's control flow *)

(** The test on line 50, at the machine the call starts in: the next
    clock reading is after the scheduled instant. *)
Definition due (m : Machine) : bool :=
  time.After (clock (world m) (reads (world m))) (nextRefresh (this m)).

(** The machine in which a refresh triggered by [Credentials] starts:
    one clock reading has been consumed by the test. *)
Definition entered (m : Machine) : Machine :=
  {| this := this m; world := tick (world m) |}.

(** The triple that the stored role holds, when every pointer on the way
    to it is non-nil. *)
Definition cached (p : TempCredentialsProvider) : option aws.Credentials :=
  match role p with
  | Some o =>
      match sts.OutCredentials o with
      | Some c =>
          match sts.AccessKeyID c, sts.SecretAccessKey c, sts.SessionToken c with
          | Some ak, Some sk, Some tok =>
              Some {| aws.AccessKeyID := ak;
                      aws.SecretAccessKey := sk;
                      aws.SessionToken := tok |}
          | _, _, _ => None
          end
      | None => None
      end
  | None => None
  end.

(** The host name that goes into the session name. *)
Definition session_host (w : World) : string :=
  match snd (hostname w) with
  | Some _ => "unknown"%string
  | None => fst (hostname w)
  end.

(** The request that [Refresh] puts together on lines 30 to 43 when it
    is entered at [m]. *)
Definition refresh_request (m : Machine) : request :=
  ({| aws.Region := Region (this m) |},
   {| sts.DurationSeconds :=
        Some (int64 (Z.quot (Duration (this m)) time.Second));
      sts.RoleARN := Some (RoleARN (this m));
      sts.RoleSessionName :=
        Some (session_name (session_host (world m))
                (time.Unix (clock (world m) (reads (world m))))) |}).

(** The service's answer to it. *)
Definition refresh_reply (m : Machine) : reply :=
  service (world m) (length (requests (world m))) (refresh_request m).

(** The instant that line 59 computes in a call entered at [m]: the third
    clock reading of the call, moved by the duration less five minutes. *)
Definition scheduled (m : Machine) : time.Time :=
  time.Add (clock (world m) (S (S (reads (world m)))))
    (int64 (Duration (this m) - 5 * time.Minute)).

(** ** Sample data for concrete runs *)

Definition triple (ak sk tok : string) : sts.AssumeRoleOutput :=
  {| sts.OutCredentials :=
       Some {| sts.AccessKeyID := Some ak;
               sts.Expiration := None;
               sts.SecretAccessKey := Some sk;
               sts.SessionToken := Some tok |};
     sts.PackedPolicySize := None |}.

(** The output a failed operation leaves behind: allocated, never filled. *)
Definition empty_output : sts.AssumeRoleOutput :=
  {| sts.OutCredentials := None; sts.PackedPolicySize := None |}.

(** A clock that shows the listed Unix seconds one reading after another
    and then stays at [last]. *)
Definition clock_script (secs : list Z) (last : Z) (n : nat) : time.Time :=
  time.Unix_at (nth n secs last).

(** A service that gives the listed replies in turn and then refuses. *)
Definition service_script (rs : list reply) (n : nat) (_ : request) : reply :=
  nth n rs (None, Some "RequestError"%string).

Definition world_of (c : nat -> time.Time) (h : string * error)
  (s : nat -> request -> reply) : World :=
  {| clock := c; reads := 0; hostname := h; service := s;
     requests := []; logged := [] |}.

Definition one_hour : time.Duration := 3600 * time.Second.

Definition sample_provider : TempCredentialsProvider :=
  fresh_provider "us-east-1" one_hour "arn:aws:iam::123456789012:role/demo".

(** The instant of a [time.Time] as one number: nanoseconds since the
    start of year 1. *)
Definition instant (t : time.Time) : Z :=
  time.sec t * 10 ^ 9 + time.nsec t.

(** A reading as [time.Now()] builds it: the nanoseconds within a second,
    the seconds far from both ends of int64. *)
Definition wellformed (t : time.Time) : Prop :=
  0 <= time.nsec t < 10 ^ 9 /\ - 2 ^ 62 <= time.sec t <= 2 ^ 62.

(** A provider that holds AK1/SK1/TOK1, in a world whose service refuses
    the next request the way the SDK does: an allocated, empty output
    together with the error. *)
Definition holder : Machine :=
  {| this := with_role (Some (triple "AK1" "SK1" "TOK1")) sample_provider;
     world :=
       world_of (clock_script [] 3301) ("box"%string, None)
         (service_script [(Some empty_output, Some "AccessDenied"%string)]) |}.

(** A provider configured with an hour and half a second. *)
Definition half_second_over : Machine :=
  {| this := fresh_provider "us-east-1"
               (3600 * time.Second + 500 * time.Millisecond)
               "arn:aws:iam::123456789012:role/demo";
     world := world_of (clock_script [] 0) ("box"%string, None)
                (service_script [(Some (triple "AK1" "SK1" "TOK1"), None)]) |}.

(** A new provider used for the first time at Unix second 0, on a clock
    that stays there; the service issues AK1/SK1/TOK1. *)
Definition first_use : Machine :=
  {| this := sample_provider;
     world := world_of (clock_script [] 0) ("box"%string, None)
                (service_script [(Some (triple "AK1" "SK1" "TOK1"), None)]) |}.

(** The provider after that first use: AK1/SK1/TOK1 stored and the next
    refresh scheduled for second 3300.  It is called again under the
    clock [c]; the service then issues AK2/SK2/TOK2. *)
Definition second_use (c : nat -> time.Time) : Machine :=
  {| this := with_nextRefresh (time.Unix_at 3300)
               (with_role (Some (triple "AK1" "SK1" "TOK1")) sample_provider);
     world := world_of c ("box"%string, None)
                (service_script [(Some (triple "AK2" "SK2" "TOK2"), None)]) |}.

(** A new provider whose first use meets a clock that shows the zero
    instant, midnight of January 1 of year 1. *)
Definition year_one : Machine :=
  {| this := sample_provider;
     world := world_of (fun _ => time.zero) ("box"%string, None)
                (service_script [(Some (triple "AK1" "SK1" "TOK1"), None)]) |}.

(** A new provider used at second 1000 while the service is down. *)
Definition outage : Machine :=
  {| this := sample_provider;
     world := world_of (clock_script [] 1000) ("box"%string, None)
                (service_script []) |}.

(** The world one second after [outage]: the service is still down. *)
Definition one_second_later : World :=
  world_of (clock_script [] 1001) ("box"%string, None) (service_script []).

(** A scenario in three calls.  The clock shows second 0 during the first
    call, 100 at the second and 200 at the third; the service issues
    AK1/SK1/TOK1 and then fails, handing back a nil output. *)
Definition scenario : Machine :=
  {| this := sample_provider;
     world := world_of (clock_script [0; 0; 0; 100] 200) ("box"%string, None)
                (service_script
                   [(Some (triple "AK1" "SK1" "TOK1"), None);
                    (None, Some "AccessDenied"%string)]) |}.

Definition after_first_call : Machine := snd (Credentials scenario).
Definition after_direct_refresh : Machine := snd (Refresh after_first_call).
(** ** Calling [Credentials] again and again *)

(** [n] calls in a row on the same struct, each one starting in the
    world the previous one left behind; a panic ends the program. *)
Fixpoint poll (n : nat) (m : Machine)
  : list (outcome (option aws.Credentials * error)) * Machine :=
  match n with
  | O => ([], m)
  | S k =>
      match Credentials m with
      | (Panicked, m1) => ([Panicked], m1)
      | (o, m1) => let r := poll k m1 in (o :: fst r, snd r)
      end
  end.

(** A clock that never steps back: no reading is after a later one. *)
Definition steady (c : nat -> time.Time) : Prop :=
  forall i j : nat, (i <= j)%nat -> time.After (c i) (c j) = false.

(** A service that answers every request with an error. *)
Definition down (s : nat -> request -> reply) : Prop :=
  forall (n : nat) (q : request), snd (s n q) <> None.

(** A new provider whose first request is answered without an error and
    without credentials. *)
Definition hollow_success : Machine :=
  {| this := sample_provider;
     world := world_of (clock_script [] 0) ("box"%string, None)
                (service_script [(Some empty_output, None)]) |}.

(** A provider whose [Duration] was left at its zero value. *)
Definition unset_duration : Machine :=
  {| this := fresh_provider "us-east-1" 0
               "arn:aws:iam::123456789012:role/demo";
     world := world_of (clock_script [] 1000) ("box"%string, None)
                (service_script [(Some (triple "AK1" "SK1" "TOK1"), None)]) |}.


(** A new provider on a machine whose host name cannot be looked up. *)
Definition nameless_host : Machine :=
  {| this := sample_provider;
     world := world_of (clock_script [] 3301)
                (""%string, Some "hostname: not available"%string)
                (service_script [(Some (triple "AK1" "SK1" "TOK1"), None)]) |}.

(** ** Basic facts *)

Lemma wrap_id (w x : Z) :
  0 < w -> - 2 ^ (w - 1) <= x < 2 ^ (w - 1) -> wrap w x = x.
Proof.
  intros Hw Hx. unfold wrap.
  assert (E : 2 ^ w = 2 * 2 ^ (w - 1)).
  { replace w with (Z.succ (w - 1)) at 1 by lia. apply Z.pow_succ_r. lia. }
  rewrite E. rewrite Z.mod_small; lia.
Qed.

Lemma int64_id (x : Z) : min_int64 <= x <= max_int64 -> int64 x = x.
Proof.
  unfold min_int64, max_int64. intros H.
  apply wrap_id; [lia | simpl Z.sub; lia].
Qed.

Lemma int32_id (x : Z) : - 2 ^ 31 <= x < 2 ^ 31 -> int32 x = x.
Proof. intros H. apply wrap_id; [lia | simpl Z.sub; lia]. Qed.

Lemma After_irrefl (t : time.Time) : time.After t t = false.
Proof.
  unfold time.After. rewrite !Z.ltb_irrefl, andb_false_r. reflexivity.
Qed.

Lemma After_spec (t u : time.Time) :
  time.After t u = true <->
  time.sec u < time.sec t \/
  (time.sec t = time.sec u /\ time.nsec u < time.nsec t).
Proof.
  unfold time.After.
  rewrite orb_true_iff, andb_true_iff, !Z.ltb_lt, Z.eqb_eq. reflexivity.
Qed.

Lemma After_trans (a b c : time.Time) :
  time.After a b = true -> time.After b c = true -> time.After a c = true.
Proof. rewrite !After_spec. lia. Qed.

(** [Refresh] is straight-line code: it never panics, sends exactly one
    request, stores the output it gets back and returns the error. *)
Lemma Refresh_run (m : Machine) :
  Refresh m =
    (Returned (snd (refresh_reply m)),
     {| this := with_role (fst (refresh_reply m)) (this m);
        world := sent (refresh_request m) (tick (world m)) |}).
Proof. reflexivity. Qed.

Lemma transpose_run (m : Machine) :
  transpose m =
    match cached (this m) with
    | Some c => (Returned (Some c, None), m)
    | None => (Panicked, m)
    end.
Proof.
  destruct m as [[rg d arn [[[[[ak|] ex [sk|] [tok|]]|] pps]|] nr] w];
    reflexivity.
Qed.

(** The three ways through [Credentials]. *)
Lemma Credentials_run (m : Machine) :
  Credentials m =
    if due m then
      let r := refresh_reply (entered m) in
      let w1 := sent (refresh_request (entered m)) (tick (tick (world m))) in
      match snd r with
      | Some e =>
          (Returned (None, Some e),
           {| this := with_role (fst r) (this m);
              world := wrote (log_line e) w1 |})
      | None =>
          let m' :=
            {| this :=
                 with_nextRefresh (scheduled m) (with_role (fst r) (this m));
               world := tick w1 |} in
          match cached (this m') with
          | Some c => (Returned (Some c, None), m')
          | None => (Panicked, m')
          end
      end
    else
      match cached (this m) with
      | Some c => (Returned (Some c, None), entered m)
      | None => (Panicked, entered m)
      end.
Proof.
  unfold Credentials, due.
  unfold bind at 1, time_Now at 1. unfold bind at 1, field at 1.
  cbn [fst snd this world].
  destruct (time.After _ _).
  - unfold bind at 1. fold (entered m). rewrite Refresh_run. cbv zeta.
    destruct (snd (refresh_reply (entered m))) as [e|].
    + reflexivity.
    + unfold bind at 1, time_Now at 1. unfold bind at 1, field at 1.
      unfold bind at 1, assign at 1. cbn [fst snd this world].
      rewrite transpose_run. reflexivity.
  - exact (transpose_run (entered m)).
Qed.

Lemma Refresh_sends_one (m : Machine) :
  exists q, requests (world (snd (Refresh m))) = requests (world m) ++ [q].
Proof. rewrite Refresh_run. cbv zeta. eexists. reflexivity. Qed.

Lemma app_one_inj {A : Type} (l : list A) (a b : A) :
  l ++ [a] = l ++ [b] -> a = b.
Proof. intros H. apply app_inv_head in H. congruence. Qed.

Lemma app_one_neq {A : Type} (l : list A) (a : A) : l <> l ++ [a].
Proof.
  intros H. apply (f_equal (@length A)) in H.
  rewrite length_app in H. simpl in H. lia.
Qed.

(** Go's integer division by a positive constant: the quotient is
    truncated towards zero. *)
Lemma quot_truncates (d b : Z) :
  0 < b ->
  d = Z.quot d b * b + Z.rem d b /\
  Z.abs (Z.rem d b) < b /\ 0 <= Z.rem d b * d /\
  Z.abs (Z.quot d b) * b <= Z.abs d.
Proof.
  intros Hb.
  pose proof (Z.quot_rem' d b) as E.
  pose proof (Z.rem_bound_abs d b ltac:(lia)) as B.
  pose proof (Z.rem_sign_mul d b ltac:(lia)) as S.
  repeat split; try lia.
  destruct (Z.le_gt_cases 0 d) as [P|N].
  - pose proof (Z.quot_pos d b P Hb).
    pose proof (Z.rem_nonneg d b ltac:(lia) P). nia.
  - pose proof (Z.quot_opp_l d b ltac:(lia)) as Q.
    pose proof (Z.rem_opp_l d b ltac:(lia)) as R.
    pose proof (Z.quot_pos (- d) b ltac:(lia) Hb).
    pose proof (Z.rem_nonneg (- d) b ltac:(lia) ltac:(lia)). nia.
Qed.

(** Away from the ends of int64, [Add] is addition of instants. *)
Lemma Add_instant (t : time.Time) (d : time.Duration) :
  wellformed t -> min_int64 <= d <= max_int64 ->
  instant (time.Add t d) = instant t + d /\
  0 <= time.nsec (time.Add t d) < 10 ^ 9.
Proof.
  intros [Hn Hs] Hd. unfold min_int64, max_int64 in Hd.
  destruct (quot_truncates d (10 ^ 9) ltac:(lia)) as (E & B & S & K).
  unfold time.Add, instant.
  change 1000000000 with (10 ^ 9).
  set (q := Z.quot d (10 ^ 9)) in *. set (r := Z.rem d (10 ^ 9)) in *.
  assert (Hq : - 2 ^ 34 <= q <= 2 ^ 34) by lia.
  rewrite (int64_id q) by (unfold min_int64, max_int64; lia).
  rewrite (int64_id (time.sec t + q)) by (unfold min_int64, max_int64; lia).
  rewrite (int32_id r) by lia.
  rewrite (int32_id (time.nsec t + r)) by lia.
  destruct (Z.leb_spec (10 ^ 9) (time.nsec t + r)) as [H1|H1].
  - cbn [time.sec time.nsec].
    rewrite int64_id by (unfold min_int64, max_int64; lia).
    rewrite int32_id by lia. lia.
  - destruct (Z.ltb_spec (time.nsec t + r) 0) as [H2|H2].
    + cbn [time.sec time.nsec].
      rewrite int64_id by (unfold min_int64, max_int64; lia).
      rewrite int32_id by lia. lia.
    + cbn [time.sec time.nsec]. lia.
Qed.

Lemma Unix_at_after_zero (s : Z) :
  0 <= s <= max_int64 - time.unixToInternal ->
  time.After (time.Unix_at s) time.zero = true.
Proof.
  intros H. apply After_spec. left. unfold time.Unix_at, time.zero.
  cbn [time.sec]. unfold max_int64 in H.
  assert (U : time.unixToInternal = 62135596800) by reflexivity.
  rewrite int64_id by (unfold min_int64, max_int64; lia). lia.
Qed.

(** Case analysis on a call of [Credentials]: due and the refresh
    failed; due and the refresh succeeded; not due. *)
Ltac run_Credentials m :=
  let D := fresh "Hdue" in
  let E := fresh "Herr" in
  rewrite ?(Credentials_run m);
  destruct (due m) eqn:D;
  [ cbv zeta; destruct (snd (refresh_reply (entered m))) eqn:E | ].

(** A call that returns a triple leaves that triple in the struct. *)
Lemma Credentials_returns_cached (m : Machine) (c : aws.Credentials) :
  fst (Credentials m) = Returned (Some c, None) ->
  cached (this (snd (Credentials m))) = Some c.
Proof.
  run_Credentials m.
  - cbn [fst]. discriminate.
  - destruct (cached _) eqn:C; cbn [fst snd]; [|discriminate].
    intros H. rewrite C. congruence.
  - destruct (cached _) eqn:C; cbn [fst snd]; [|discriminate].
    intros H. change (this (entered m)) with (this m). rewrite C. congruence.
Qed.

Lemma Credentials_due_sends_one (m : Machine) :
  due m = true ->
  exists q,
    requests (world (snd (Credentials m))) = requests (world m) ++ [q].
Proof.
  intros D. rewrite Credentials_run, D. cbv zeta.
  exists (refresh_request (entered m)).
  destruct (snd (refresh_reply (entered m))); [reflexivity|].
  destruct (cached _); reflexivity.
Qed.

Lemma Credentials_not_due_sends_none (m : Machine) :
  due m = false ->
  requests (world (snd (Credentials m))) = requests (world m).
Proof.
  intros D. rewrite Credentials_run, D.
  destruct (cached _); reflexivity.
Qed.

Lemma Refresh_succeeded (m : Machine) :
  fst (Refresh m) = Returned None -> snd (refresh_reply m) = None.
Proof. rewrite Refresh_run. cbn [fst]. congruence. Qed.

Lemma Refresh_failed (m : Machine) (e : string) :
  fst (Refresh m) = Returned (Some e) -> snd (refresh_reply m) = Some e.
Proof. rewrite Refresh_run. cbn [fst]. congruence. Qed.

Lemma to_int_normal (z : Z) : Decimal.norm (Z.to_int z) = Z.to_int z.
Proof. rewrite <- DecimalZ.to_of, DecimalZ.of_to. reflexivity. Qed.

Lemma norm_not_nil (d : Decimal.signed_int) :
  Decimal.norm d <> Decimal.Pos Decimal.Nil /\
  Decimal.norm d <> Decimal.Neg Decimal.Nil.
Proof.
  destruct d as [u|u]; cbn.
  - unfold Decimal.unorm. destruct (Decimal.nzhead u); split; discriminate.
  - destruct (Decimal.nzhead u); split; discriminate.
Qed.

(** Different integers print differently under [%d]. *)
Lemma fmt_d_inj (a b : Z) : fmt_d a = fmt_d b -> a = b.
Proof.
  unfold fmt_d. intros H. apply DecimalZ.to_int_inj.
  assert (P : forall z,
             NilZero.int_of_string (NilZero.string_of_int (Z.to_int z))
             = Some (Z.to_int z)).
  { intros z. destruct (norm_not_nil (Z.to_int z)) as [N1 N2].
    rewrite to_int_normal in N1, N2. apply NilZero.isi; assumption. }
  pose proof (P a) as Pa. rewrite H, P in Pa. congruence.
Qed.

Lemma append_inj_l (p a b : string) : (p ++ a = p ++ b)%string -> a = b.
Proof.
  induction p as [|c p IH]; cbn; intros H; [exact H|].
  injection H as H. exact (IH H).
Qed.

(** The int64 that a wrapped sum stands for: the sum itself, moved by a
    multiple of 2^64 into the range of the type. *)
Lemma int64_spec (x : Z) :
  exists k : Z, int64 x = x + k * 2 ^ 64 /\ - 2 ^ 63 <= int64 x < 2 ^ 63.
Proof.
  unfold int64, wrap. change (64 - 1) with 63.
  exists (- ((x + 2 ^ 63) / 2 ^ 64)).
  pose proof (Z.div_mod (x + 2 ^ 63) (2 ^ 64) ltac:(lia)) as E.
  pose proof (Z.mod_pos_bound (x + 2 ^ 63) (2 ^ 64) ltac:(lia)) as B.
  split; lia.
Qed.

(** What [%d] prints reads back, by the library's reader of decimal
    numerals, as a numeral without superfluous zeros whose value is the
    number printed. *)
Lemma fmt_d_reads_back (z : Z) :
  NilZero.int_of_string (fmt_d z) = Some (Z.to_int z) /\
  Decimal.norm (Z.to_int z) = Z.to_int z /\
  Z.of_int (Z.to_int z) = z.
Proof.
  split; [|split].
  - unfold fmt_d. destruct (norm_not_nil (Z.to_int z)) as [N1 N2].
    rewrite to_int_normal in N1, N2. apply NilZero.isi; assumption.
  - apply to_int_normal.
  - apply DecimalZ.of_to.
Qed.

(** ** Refresh *)

(** C1, refuted as worded: the refresh at [holder] fails, its error
    reaches the caller, and the role field no longer holds what it held
    before the call. *)
Lemma C1_failed_refresh_overwrites_role :
  fst (Refresh holder) = Returned (Some "AccessDenied"%string) /\
  role (this holder) = Some (triple "AK1" "SK1" "TOK1") /\
  role (this (snd (Refresh holder))) = Some empty_output /\
  role (this (snd (Refresh holder))) <> role (this holder).
Proof.
  repeat split; try reflexivity.
  vm_compute. discriminate.
Qed.

(** C1, amended: for every cache state, if [Refresh] is invoked, [q] is
    the request it sends, and the service answers [q] with an output
    [out] and an error [e], then the error is propagated to the caller,
    the role field holds [out] after the call (the service's output, not
    the value stored before), and [nextRefresh] is as before. *)
Theorem C1_failed_refresh_stores_service_output
  (m : Machine) (q : request) (out : option sts.AssumeRoleOutput) (e : string) :
  requests (world (snd (Refresh m))) = requests (world m) ++ [q] ->
  service (world m) (length (requests (world m))) q = (out, Some e) ->
  fst (Refresh m) = Returned (Some e) /\
  role (this (snd (Refresh m))) = out /\
  nextRefresh (this (snd (Refresh m))) = nextRefresh (this m).
Proof.
  rewrite Refresh_run. cbn [fst snd this world requests sent tick].
  intros Hq Hs. apply app_one_inj in Hq. subst q.
  unfold refresh_reply. rewrite Hs. repeat split.
Qed.

Lemma C1_failed_refresh_stores_service_output_witness :
  fst (Refresh holder) = Returned (Some "AccessDenied"%string) /\
  role (this (snd (Refresh holder))) = Some empty_output /\
  nextRefresh (this (snd (Refresh holder))) = nextRefresh (this holder).
Proof.
  apply (C1_failed_refresh_stores_service_output holder
           ({| aws.Region := "us-east-1" |},
            {| sts.DurationSeconds := Some 3600;
               sts.RoleARN := Some "arn:aws:iam::123456789012:role/demo"%string;
               sts.RoleSessionName := Some "temp-box-3301"%string |})).
  - reflexivity.
  - reflexivity.
Defined.

(** C7: every invocation of [Refresh] sends one request whose session
    name is "temp-" + host + "-" + digits.  Here host is the name
    [os.Hostname] returned, or "unknown" when it returned an error, and
    digits is the decimal numeral, without superfluous zeros, of the
    Unix seconds of the clock reading taken inside the call: the
    reading's seconds less the 62135596800 that separate year 1 from
    1970, as an int64.  What [Refresh] returns is the service's error on
    that request, so a failed host-name lookup by itself never makes
    [Refresh] fail.  Two runs at Unix second 3301 show the names
    "temp-box-3301" and, with the lookup failing, "temp-unknown-3301",
    the refresh succeeding in both. *)
Theorem C7_session_name :
  (forall m : Machine,
      let w := world m in
      let now := clock w (reads w) in
      let host :=
        match snd (hostname w) with
        | None => fst (hostname w)
        | Some _ => "unknown"%string
        end in
      exists (q : request) (digits : string)
             (d : Decimal.signed_int) (unix k : Z),
        requests (world (snd (Refresh m))) = requests w ++ [q] /\
        sts.RoleSessionName (snd q) =
          Some ("temp-" ++ host ++ "-" ++ digits)%string /\
        NilZero.int_of_string digits = Some d /\
        Decimal.norm d = d /\
        Z.of_int d = unix /\
        unix = time.sec now - 62135596800 + k * 2 ^ 64 /\
        - 2 ^ 63 <= unix < 2 ^ 63 /\
        fst (Refresh m) =
          Returned (snd (service w (length (requests w)) q))) /\
  (fst (Refresh (second_use (clock_script [] 3301))) = Returned None /\
   map (fun q => sts.RoleSessionName (snd q))
     (requests (world (snd (Refresh (second_use (clock_script [] 3301))))))
   = [Some "temp-box-3301"%string]) /\
  (fst (Refresh nameless_host) = Returned None /\
   map (fun q => sts.RoleSessionName (snd q))
     (requests (world (snd (Refresh nameless_host))))
   = [Some "temp-unknown-3301"%string]).
Proof.
  split; [|split; split; reflexivity].
  intros m. cbv zeta. rewrite Refresh_run.
  set (now := clock (world m) (reads (world m))).
  destruct (int64_spec (time.sec now + time.internalToUnix)) as [k [Hk Hb]].
  destruct (fmt_d_reads_back (time.Unix now)) as (R1 & R2 & R3).
  exists (refresh_request m), (fmt_d (time.Unix now)),
    (Z.to_int (time.Unix now)), (time.Unix now), k.
  split; [reflexivity|].
  split.
  { cbn [snd refresh_request sts.RoleSessionName].
    unfold session_name, session_host.
    destruct (snd (hostname (world m))); reflexivity. }
  split; [exact R1|]. split; [exact R2|]. split; [exact R3|].
  split.
  { unfold time.Unix. rewrite Hk.
    assert (I : time.internalToUnix = - 62135596800) by reflexivity.
    rewrite I. lia. }
  split; [exact Hb | reflexivity].
Qed.

(** A run with a host name, and one where the lookup fails: the refresh
    succeeds in both. *)
Example session_name_with_host :
  fst (Refresh first_use) = Returned None /\
  map (fun q => sts.RoleSessionName (snd q))
    (requests (world (snd (Refresh first_use)))) =
  [Some "temp-box-0"%string].
Proof. split; reflexivity. Qed.

Example session_name_without_host :
  let m := {| this := sample_provider;
              world := world_of (clock_script [] 3301)
                         (""%string, Some "hostname: not available"%string)
                         (service_script
                            [(Some (triple "AK1" "SK1" "TOK1"), None)]) |} in
  fst (Refresh m) = Returned None /\
  map (fun q => sts.RoleSessionName (snd q))
    (requests (world (snd (Refresh m)))) = [Some "temp-unknown-3301"%string].
Proof. split; reflexivity. Qed.

(** C8: every invocation of [Refresh] sends one request whose
    [DurationSeconds] is the configured [Duration] (an int64 count of
    nanoseconds) divided by one second, 10^9 nanoseconds, with the
    fraction dropped: the quotient [k] differs from the exact ratio by a
    remainder smaller than one second that has the sign of [Duration]. *)
Theorem C8_duration_in_whole_seconds (m : Machine) :
  min_int64 <= Duration (this m) <= max_int64 ->
  exists (q : request) (k r : Z),
    requests (world (snd (Refresh m))) = requests (world m) ++ [q] /\
    sts.DurationSeconds (snd q) = Some k /\
    k = Z.quot (Duration (this m)) time.Second /\
    time.Second = 10 ^ 9 /\
    Duration (this m) = k * 10 ^ 9 + r /\
    Z.abs r < 10 ^ 9 /\ 0 <= r * Duration (this m).
Proof.
  intros Hd. rewrite Refresh_run.
  set (d := Duration (this m)) in *.
  assert (Hs : time.Second = 10 ^ 9) by reflexivity.
  destruct (quot_truncates d (10 ^ 9) ltac:(lia)) as (E & B & S & K).
  assert (Hk : min_int64 <= Z.quot d time.Second <= max_int64).
  { rewrite Hs. unfold min_int64, max_int64 in *. lia. }
  exists (refresh_request m), (Z.quot d time.Second), (Z.rem d (10 ^ 9)).
  split; [reflexivity|].
  split.
  { cbn [snd refresh_request sts.DurationSeconds]. fold d.
    rewrite int64_id by exact Hk. reflexivity. }
  split; [reflexivity|].
  split; [exact Hs|].
  rewrite Hs. repeat split; assumption.
Qed.

Lemma C8_duration_in_whole_seconds_witness :
  exists (q : request) (k r : Z),
    requests (world (snd (Refresh half_second_over))) = [] ++ [q] /\
    sts.DurationSeconds (snd q) = Some k /\
    k = Z.quot 3600500000000 time.Second /\
    time.Second = 10 ^ 9 /\
    3600500000000 = k * 10 ^ 9 + r /\
    Z.abs r < 10 ^ 9 /\ 0 <= r * 3600500000000.
Proof.
  apply (C8_duration_in_whole_seconds half_second_over).
  vm_compute. split; discriminate.
Defined.

(** Truncation is towards zero on both sides. *)
Example whole_seconds_of_3600_5 :
  map (fun q => sts.DurationSeconds (snd q))
    (requests (world (snd (Refresh half_second_over)))) = [Some 3600].
Proof. reflexivity. Qed.

Example whole_seconds_of_minus_1_5 :
  let m := {| this := fresh_provider "us-east-1" (- 1500 * time.Millisecond) "r";
              world := world half_second_over |} in
  map (fun q => sts.DurationSeconds (snd q))
    (requests (world (snd (Refresh m)))) = [Some (-1)].
Proof. reflexivity. Qed.

(** C9: [Refresh] never modifies [nextRefresh]; neither [Refresh] nor
    [Credentials] modifies [Region], [RoleARN] or [Duration]; and
    [Credentials] changes [nextRefresh] only when a refresh was due and
    succeeded, to the value computed on line 59. *)
Theorem C9_frame (m : Machine) :
  let p := this m in
  let pr := this (snd (Refresh m)) in
  let pc := this (snd (Credentials m)) in
  nextRefresh pr = nextRefresh p /\
  (Region pr = Region p /\ RoleARN pr = RoleARN p /\
   Duration pr = Duration p) /\
  (Region pc = Region p /\ RoleARN pc = RoleARN p /\
   Duration pc = Duration p) /\
  nextRefresh pc =
    (if due m then
       match fst (Refresh (entered m)) with
       | Returned None =>
           time.Add (clock (world m) (S (S (reads (world m)))))
             (int64 (Duration p - 5 * time.Minute))
       | _ => nextRefresh p
       end
     else nextRefresh p).
Proof.
  cbv zeta. split; [|split].
  - rewrite Refresh_run. reflexivity.
  - rewrite Refresh_run. repeat split.
  - run_Credentials m.
    + rewrite Refresh_run, Herr. cbn [fst snd this]. repeat split.
    + rewrite Refresh_run, Herr.
      destruct (cached _); cbn [fst snd this]; repeat split.
    + destruct (cached _); cbn [fst snd this entered]; repeat split.
Qed.

(** ** Credentials *)

(** Away from the ends of int64, the instant of line 59 is the third
    reading plus the duration minus five minutes, in nanoseconds. *)
Lemma scheduled_instant (m : Machine) :
  wellformed (clock (world m) (S (S (reads (world m))))) ->
  min_int64 + 5 * time.Minute <= Duration (this m) <= max_int64 ->
  instant (scheduled m) =
    instant (clock (world m) (S (S (reads (world m)))))
    + Duration (this m) - 5 * time.Minute.
Proof.
  intros W R. unfold scheduled.
  assert (M5 : 5 * time.Minute = 300000000000) by reflexivity.
  rewrite M5 in *. unfold min_int64, max_int64 in R.
  rewrite int64_id by (unfold min_int64, max_int64; lia).
  destruct (Add_instant (clock (world m) (S (S (reads (world m)))))
              (Duration (this m) - 300000000000) W) as [A _].
  { unfold min_int64, max_int64; lia. }
  rewrite A. lia.
Qed.

(** C2, refuted as worded.  On a clock that stays at second 3301 the
    successful refresh schedules second 6601, not 6600; and when the
    request takes two seconds, so that the clock shows 3301 at the test
    and 3303 after the refresh, the schedule is 3303 plus the margin-less
    duration, not the instant of the first reading plus it. *)
Lemma C2_schedule_counts_from_later_reading :
  (let m := second_use (clock_script [] 3301) in
   due m = true /\
   fst (Refresh (entered m)) = Returned None /\
   nextRefresh (this (snd (Credentials m))) = time.Unix_at 6601 /\
   nextRefresh (this (snd (Credentials m))) <> time.Unix_at 6600) /\
  (let m := second_use (clock_script [3301; 3301] 3303) in
   due m = true /\
   fst (Refresh (entered m)) = Returned None /\
   clock (world m) (reads (world m)) = time.Unix_at 3301 /\
   nextRefresh (this (snd (Credentials m))) = time.Unix_at 6603 /\
   nextRefresh (this (snd (Credentials m))) <>
     time.Add (clock (world m) (reads (world m)))
       (int64 (Duration (this m) - 5 * time.Minute))).
Proof.
  split; cbv zeta; repeat split; try reflexivity;
    vm_compute; discriminate.
Qed.

(** C2, amended: whenever a call to [Credentials] triggers a refresh and
    the refresh succeeds, [nextRefresh] is set to now' + (Duration - 5
    minutes), where now' is the clock reading taken after [Refresh] has
    returned, the third of the call; away from the ends of int64 that is
    addition of instants in nanoseconds. *)
Theorem C2_next_refresh_after_success (m : Machine) :
  due m = true ->
  fst (Refresh (entered m)) = Returned None ->
  let now' := clock (world m) (S (S (reads (world m)))) in
  let d := Duration (this m) in
  let nr := nextRefresh (this (snd (Credentials m))) in
  nr = time.Add now' (int64 (d - 5 * time.Minute)) /\
  (wellformed now' -> min_int64 + 5 * time.Minute <= d <= max_int64 ->
   instant nr = instant now' + d - 5 * time.Minute).
Proof.
  intros D H. apply Refresh_succeeded in H. cbv zeta.
  rewrite Credentials_run, D. cbv zeta. rewrite H.
  destruct (cached _); cbn [snd this with_nextRefresh nextRefresh];
    (split; [reflexivity | apply scheduled_instant]).
Qed.

Lemma C2_next_refresh_after_success_witness :
  nextRefresh (this (snd (Credentials first_use))) = time.Unix_at 3300 /\
  instant (nextRefresh (this (snd (Credentials first_use)))) =
    instant (time.Unix_at 0) + 3300 * 10 ^ 9.
Proof.
  destruct (C2_next_refresh_after_success first_use eq_refl eq_refl)
    as [H1 H2].
  split.
  - rewrite H1. reflexivity.
  - rewrite H2.
    + reflexivity.
    + vm_compute. repeat split; discriminate.
    + vm_compute. split; discriminate.
Defined.

(** The running example of the schedule: a first use at second 0 sets
    the next refresh to second 3300; calls at 100, 1000 and 3200 are
    served from the struct; the call at second 3301, on a clock that
    stays there, fetches AK2/SK2/TOK2 and sets it to second 6601. *)
Example schedule_example :
  nextRefresh (this (snd (Credentials first_use))) = time.Unix_at 3300 /\
  map (fun t => due (second_use (clock_script [] t))) [100; 1000; 3200; 3301]
    = [false; false; false; true] /\
  fst (Credentials (second_use (clock_script [] 3301))) =
    Returned (Some {| aws.AccessKeyID := "AK2";
                      aws.SecretAccessKey := "SK2";
                      aws.SessionToken := "TOK2" |}, None) /\
  nextRefresh (this (snd (Credentials (second_use (clock_script [] 3301)))))
    = time.Unix_at 6601.
Proof. repeat split; reflexivity. Qed.

(** C3: for every cache state, if a call to [Credentials] triggers a
    refresh and the refresh fails with error [e], the call returns [e]
    and no triple, [nextRefresh] is not modified, and a call of
    [Credentials] on the resulting struct at any strictly later clock
    reading is due again and sends one more request. *)
Theorem C3_failed_refresh_is_retried (m : Machine) (e : string) :
  due m = true ->
  fst (Refresh (entered m)) = Returned (Some e) ->
  let p' := this (snd (Credentials m)) in
  fst (Credentials m) = Returned (None, Some e) /\
  nextRefresh p' = nextRefresh (this m) /\
  forall w2 : World,
    time.After (clock w2 (reads w2)) (clock (world m) (reads (world m)))
      = true ->
    let m2 := {| this := p'; world := w2 |} in
    due m2 = true /\
    exists q, requests (world (snd (Credentials m2))) = requests w2 ++ [q].
Proof.
  intros D H. apply Refresh_failed in H. cbv zeta.
  rewrite (Credentials_run m), D. cbv zeta. rewrite H.
  cbn [fst snd this]. split; [reflexivity|]. split; [reflexivity|].
  intros w2 L.
  assert (D2 : due {| this := with_role (fst (refresh_reply (entered m))) (this m);
                      world := w2 |} = true).
  { unfold due in *. cbn [this world with_role nextRefresh].
    exact (After_trans _ _ _ L D). }
  split; [exact D2|].
  apply (Credentials_due_sends_one _ D2).
Qed.

Lemma C3_failed_refresh_is_retried_witness :
  fst (Credentials outage) = Returned (None, Some "RequestError"%string) /\
  nextRefresh (this (snd (Credentials outage))) = time.zero /\
  exists q,
    requests (world (snd (Credentials
      {| this := this (snd (Credentials outage));
         world := one_second_later |}))) = [] ++ [q].
Proof.
  pose proof (C3_failed_refresh_is_retried outage "RequestError"%string
                eq_refl eq_refl) as H.
  cbv zeta in H. destruct H as (H1 & H2 & H3).
  split; [exact H1|]. split; [exact H2|].
  exact (proj2 (H3 one_second_later eq_refl)).
Defined.

(** The zero value of [nextRefresh] is an instant like any other, the
    start of year 1, far below anything a system clock delivers: on a
    reading that shows it, a new provider would not be due. *)
Example zero_instant_reading_is_not_due :
  role (this year_one) = None /\
  nextRefresh (this year_one) = time.zero /\
  due year_one = false /\
  requests (world (snd (Credentials year_one))) = [] /\
  fst (Credentials year_one) = Panicked.
Proof. repeat split; reflexivity. Qed.




(** C5: for every pair of consecutive [Credentials] calls where the first
    returned a triple and the second starts, in whatever world, at a
    clock reading that is not after [nextRefresh], the second call sends
    nothing to the service, leaves the struct as it was, and returns the
    same triple. *)
Theorem C5_no_redundant_refresh
  (m : Machine) (c : aws.Credentials) (w2 : World) :
  fst (Credentials m) = Returned (Some c, None) ->
  let p1 := this (snd (Credentials m)) in
  let m2 := {| this := p1; world := w2 |} in
  due m2 = false ->
  fst (Credentials m2) = Returned (Some c, None) /\
  this (snd (Credentials m2)) = p1 /\
  requests (world (snd (Credentials m2))) = requests w2.
Proof.
  intros H. apply Credentials_returns_cached in H. cbv zeta. intros D.
  rewrite (Credentials_run {| this := _; world := w2 |}), D.
  cbn [this]. rewrite H. repeat split.
Qed.

Lemma C5_no_redundant_refresh_witness :
  let c := {| aws.AccessKeyID := "AK1"%string;
              aws.SecretAccessKey := "SK1"%string;
              aws.SessionToken := "TOK1"%string |} in
  let m2 := snd (Credentials first_use) in
  fst (Credentials first_use) = Returned (Some c, None) /\
  fst (Credentials m2) = Returned (Some c, None) /\
  this (snd (Credentials m2)) = this m2 /\
  requests (world (snd (Credentials m2))) = requests (world m2).
Proof.
  cbv zeta. split; [reflexivity|].
  apply (C5_no_redundant_refresh first_use _
           (world (snd (Credentials first_use)))); reflexivity.
Defined.

(** C6: in every call to [Credentials] that is not due, the stored role
    is dereferenced without a check: if it is nil the call panics, having
    sent nothing and changed nothing in the struct, instead of returning
    an error.  Such a state is reachable: in [scenario] a first call
    succeeds, a direct [Refresh] then fails and stores the nil output it
    was handed, and the next call, still before [nextRefresh], panics. *)
Theorem C6_nil_role_panics :
  (forall m : Machine,
      due m = false -> role (this m) = None ->
      fst (Credentials m) = Panicked /\
      this (snd (Credentials m)) = this m /\
      requests (world (snd (Credentials m))) = requests (world m)) /\
  (fst (Credentials scenario) =
     Returned (Some {| aws.AccessKeyID := "AK1";
                       aws.SecretAccessKey := "SK1";
                       aws.SessionToken := "TOK1" |}, None) /\
   fst (Refresh after_first_call) = Returned (Some "AccessDenied"%string) /\
   role (this after_direct_refresh) = None /\
   due after_direct_refresh = false /\
   fst (Credentials after_direct_refresh) = Panicked).
Proof.
  split.
  - intros m D R. rewrite Credentials_run, D.
    unfold cached. rewrite R. repeat split.
  - repeat split; reflexivity.
Qed.

(** The same happens when the failed operation hands back an allocated
    output with nothing in it: the dereference of its [Credentials]
    field panics. *)
Example empty_output_panics_too :
  let m := {| this := with_nextRefresh (time.Unix_at 3300)
                        (this (snd (Refresh holder)));
              world := world_of (clock_script [] 3000) ("box"%string, None)
                         (service_script []) |} in
  role (this m) = Some empty_output /\
  due m = false /\
  fst (Credentials m) = Panicked.
Proof. repeat split; reflexivity. Qed.

Lemma C6_nil_role_panics_witness :
  fst (Credentials after_direct_refresh) = Panicked /\
  this (snd (Credentials after_direct_refresh)) = this after_direct_refresh /\
  requests (world (snd (Credentials after_direct_refresh)))
    = requests (world after_direct_refresh).
Proof.
  apply (proj1 C6_nil_role_panics after_direct_refresh); reflexivity.
Defined.

(** C10: the test that triggers a refresh is strict.  A call made when
    the clock reads exactly [nextRefresh] sends nothing and returns the
    triple that the stored role holds; and a call sends a request if and
    only if the clock reads strictly after [nextRefresh]. *)
Theorem C10_strict_comparison (m : Machine) :
  let now := clock (world m) (reads (world m)) in
  let nr := nextRefresh (this m) in
  (now = nr ->
   requests (world (snd (Credentials m))) = requests (world m) /\
   forall ak sk tok ex pps,
     role (this m) =
       Some {| sts.OutCredentials :=
                 Some {| sts.AccessKeyID := Some ak;
                         sts.Expiration := ex;
                         sts.SecretAccessKey := Some sk;
                         sts.SessionToken := Some tok |};
               sts.PackedPolicySize := pps |} ->
     fst (Credentials m) =
       Returned (Some {| aws.AccessKeyID := ak;
                         aws.SecretAccessKey := sk;
                         aws.SessionToken := tok |}, None)) /\
  ((exists q,
      requests (world (snd (Credentials m))) = requests (world m) ++ [q]) <->
   (time.sec nr < time.sec now \/
    (time.sec now = time.sec nr /\ time.nsec nr < time.nsec now))).
Proof.
  cbv zeta. split.
  - intros E.
    assert (D : due m = false) by (unfold due; rewrite E; apply After_irrefl).
    split; [apply Credentials_not_due_sends_none; exact D|].
    intros ak sk tok ex pps R. rewrite Credentials_run, D.
    unfold cached. rewrite R. reflexivity.
  - rewrite <- After_spec. fold (due m). split.
    + intros [q Hq]. destruct (due m) eqn:D; [reflexivity|].
      rewrite (Credentials_not_due_sends_none m D) in Hq.
      exfalso. exact (app_one_neq _ _ Hq).
    + apply Credentials_due_sends_one.
Qed.

Lemma C10_strict_comparison_witness :
  requests (world (snd (Credentials (second_use (clock_script [] 3300)))))
    = [] /\
  fst (Credentials (second_use (clock_script [] 3300))) =
    Returned (Some {| aws.AccessKeyID := "AK1";
                      aws.SecretAccessKey := "SK1";
                      aws.SessionToken := "TOK1" |}, None).
Proof.
  destruct (proj1 (C10_strict_comparison (second_use (clock_script [] 3300)))
              eq_refl) as [H1 H2].
  split; [exact H1|].
  exact (H2 "AK1"%string "SK1"%string "TOK1"%string None None eq_refl).
Defined.

(** ** Further properties of the two methods *)

Lemma After_false_spec (t u : time.Time) :
  time.After t u = false <->
  time.sec t < time.sec u \/
  (time.sec t = time.sec u /\ time.nsec t <= time.nsec u).
Proof.
  rewrite <- not_true_iff_false, After_spec. lia.
Qed.

(** A reading that is not before one that is after [b] is after [b]. *)
Lemma After_later (a b c : time.Time) :
  time.After a b = true -> time.After a c = false -> time.After c b = true.
Proof. rewrite After_false_spec, !After_spec. lia. Qed.

(** On instants with their nanoseconds in range, [After] is the strict
    order of the nanosecond counts. *)
Lemma After_instant (t u : time.Time) :
  0 <= time.nsec t < 10 ^ 9 -> 0 <= time.nsec u < 10 ^ 9 ->
  (time.After t u = true <-> instant u < instant t).
Proof. intros Ht Hu. rewrite After_spec. unfold instant. lia. Qed.

Lemma scheduled_nsec (m : Machine) :
  wellformed (clock (world m) (S (S (reads (world m))))) ->
  min_int64 + 5 * time.Minute <= Duration (this m) <= max_int64 ->
  0 <= time.nsec (scheduled m) < 10 ^ 9.
Proof.
  intros W R. unfold scheduled.
  assert (M5 : 5 * time.Minute = 300000000000) by reflexivity.
  rewrite M5 in *. unfold min_int64, max_int64 in R.
  rewrite int64_id by (unfold min_int64, max_int64; lia).
  apply Add_instant; [exact W | unfold min_int64, max_int64; lia].
Qed.

(** What a due call whose refresh succeeded leaves in [nextRefresh],
    whether or not it then panics. *)
Lemma nextRefresh_after_success (m : Machine) :
  due m = true ->
  fst (Refresh (entered m)) = Returned None ->
  nextRefresh (this (snd (Credentials m))) = scheduled m.
Proof.
  intros D H. apply Refresh_succeeded in H.
  rewrite Credentials_run, D. cbv zeta. rewrite H.
  destruct (cached _); reflexivity.
Qed.

(** X1: a call to [Credentials] returns an error, and with it a nil
    triple, exactly when a refresh was due and failed, and the error is
    that refresh's.  In every other case it returns, with a nil error,
    the triple that the struct holds at the end of the call, or panics,
    and it panics exactly when the role stored at that point lacks one
    of the pointers that lead to the three strings.  So whenever the
    call returns, exactly one of the triple and the error is nil. *)
Theorem X1_result_shape (m : Machine) :
  fst (Credentials m) =
    match (if due m then fst (Refresh (entered m)) else Returned None) with
    | Returned (Some e) => Returned (None, Some e)
    | _ =>
        match cached (this (snd (Credentials m))) with
        | Some c => Returned (Some c, None)
        | None => Panicked
        end
    end.
Proof.
  run_Credentials m.
  - rewrite Refresh_run, Herr. reflexivity.
  - rewrite Refresh_run, Herr. cbn [fst].
    destruct (cached _) eqn:C; cbn [fst snd]; rewrite C; reflexivity.
  - destruct (cached _) eqn:C; cbn [fst snd];
      change (this (entered m)) with (this m); rewrite C; reflexivity.
Qed.

Lemma X1_result_shape_witness :
  fst (Credentials first_use) =
    Returned (Some {| aws.AccessKeyID := "AK1";
                      aws.SecretAccessKey := "SK1";
                      aws.SessionToken := "TOK1" |}, None) /\
  fst (Credentials outage) = Returned (None, Some "RequestError"%string) /\
  fst (Credentials hollow_success) = Panicked.
Proof.
  split; [rewrite (X1_result_shape first_use); reflexivity|].
  split; [rewrite (X1_result_shape outage); reflexivity|].
  rewrite (X1_result_shape hollow_success); reflexivity.
Defined.

(** X2: if a call to [Credentials] is due and the service answers the
    request it sends with no error and an output in which all three
    strings are present, the call returns exactly those three strings,
    whatever the struct held before, and the struct holds that output
    afterwards. *)
Theorem X2_due_call_returns_issued_triple
  (m : Machine) (q : request) (ak sk tok : string)
  (ex : option time.Time) (pps : option Z) :
  let out :=
    {| sts.OutCredentials :=
         Some {| sts.AccessKeyID := Some ak;
                 sts.Expiration := ex;
                 sts.SecretAccessKey := Some sk;
                 sts.SessionToken := Some tok |};
       sts.PackedPolicySize := pps |} in
  due m = true ->
  requests (world (snd (Credentials m))) = requests (world m) ++ [q] ->
  service (world m) (length (requests (world m))) q = (Some out, None) ->
  fst (Credentials m) =
    Returned (Some {| aws.AccessKeyID := ak;
                      aws.SecretAccessKey := sk;
                      aws.SessionToken := tok |}, None) /\
  role (this (snd (Credentials m))) = Some out.
Proof.
  cbv zeta. intros D Hq Hs.
  assert (Q : q = refresh_request (entered m)).
  { destruct (Credentials_due_sends_one m D) as [q' Hq'].
    revert Hq Hq'. rewrite Credentials_run, D. cbv zeta.
    destruct (snd (refresh_reply (entered m)));
      [|destruct (cached _)]; cbn [snd world requests sent tick wrote];
      intros Hq _; apply app_one_inj in Hq; congruence. }
  subst q.
  assert (R : refresh_reply (entered m) =
              (Some {| sts.OutCredentials :=
                         Some {| sts.AccessKeyID := Some ak;
                                 sts.Expiration := ex;
                                 sts.SecretAccessKey := Some sk;
                                 sts.SessionToken := Some tok |};
                       sts.PackedPolicySize := pps |}, None)) by exact Hs.
  rewrite Credentials_run, D. cbv zeta. rewrite R. split; reflexivity.
Qed.

Lemma X2_due_call_returns_issued_triple_witness :
  fst (Credentials (second_use (clock_script [] 3301))) =
    Returned (Some {| aws.AccessKeyID := "AK2";
                      aws.SecretAccessKey := "SK2";
                      aws.SessionToken := "TOK2" |}, None) /\
  role (this (snd (Credentials (second_use (clock_script [] 3301))))) =
    Some (triple "AK2" "SK2" "TOK2").
Proof.
  apply (X2_due_call_returns_issued_triple
           (second_use (clock_script [] 3301))
           ({| aws.Region := "us-east-1" |},
            {| sts.DurationSeconds := Some 3600;
               sts.RoleARN := Some "arn:aws:iam::123456789012:role/demo"%string;
               sts.RoleSessionName := Some "temp-box-3301"%string |})
           "AK2"%string "SK2"%string "TOK2"%string None None);
    reflexivity.
Defined.

(** X3: the request that [Refresh] sends goes to the region in the
    struct's [Region] field and names the role in its [RoleARN] field;
    and a call to [Credentials] that is due sends exactly the request
    that [Refresh] sends when entered after the test's clock reading. *)
Theorem X3_request_routing (m : Machine) :
  (exists q : request,
      requests (world (snd (Refresh m))) = requests (world m) ++ [q] /\
      aws.Region (fst q) = Region (this m) /\
      sts.RoleARN (snd q) = Some (RoleARN (this m))) /\
  (due m = true ->
   requests (world (snd (Credentials m))) =
     requests (world (snd (Refresh (entered m))))).
Proof.
  split.
  - rewrite Refresh_run. exists (refresh_request m). repeat split.
  - intros D. rewrite Credentials_run, D, Refresh_run. cbv zeta.
    destruct (snd (refresh_reply (entered m))); [reflexivity|].
    destruct (cached _); reflexivity.
Qed.

Lemma X3_request_routing_witness :
  requests (world (snd (Credentials first_use))) =
    requests (world (snd (Refresh (entered first_use)))).
Proof.
  apply (proj2 (X3_request_routing first_use)). reflexivity.
Defined.

Lemma cached_with_nextRefresh (t : time.Time) (p : TempCredentialsProvider) :
  cached (with_nextRefresh t p) = cached p.
Proof. reflexivity. Qed.

(** X4: if a call to [Credentials] is due and its refresh returns no
    error although the output it stored lacks a credential pointer, the
    call panics after it has advanced [nextRefresh]; and every later
    call that starts at or before that instant panics as well, without
    sending anything to the service. *)
Theorem X4_success_without_credentials (m : Machine) :
  due m = true ->
  fst (Refresh (entered m)) = Returned None ->
  cached (this (snd (Refresh (entered m)))) = None ->
  let p' := this (snd (Credentials m)) in
  fst (Credentials m) = Panicked /\
  nextRefresh p' =
    time.Add (clock (world m) (S (S (reads (world m)))))
      (int64 (Duration (this m) - 5 * time.Minute)) /\
  forall w2 : World,
    due {| this := p'; world := w2 |} = false ->
    fst (Credentials {| this := p'; world := w2 |}) = Panicked /\
    requests (world (snd (Credentials {| this := p'; world := w2 |})))
      = requests w2.
Proof.
  intros D H C. cbv zeta.
  pose proof (nextRefresh_after_success m D H) as N.
  apply Refresh_succeeded in H. rewrite Refresh_run in C.
  cbn [snd this entered] in C.
  pose proof (Credentials_run m) as X. rewrite D in X. cbv zeta in X.
  rewrite H in X. cbn [this] in X.
  rewrite cached_with_nextRefresh, C in X.
  assert (C' : cached (this (snd (Credentials m))) = None).
  { rewrite X. cbn [snd this]. rewrite cached_with_nextRefresh. exact C. }
  split; [|split].
  - rewrite X. reflexivity.
  - exact N.
  - intros w2 D2.
    rewrite (Credentials_run {| this := _; world := w2 |}), D2.
    cbn [this]. rewrite C'. split; reflexivity.
Qed.

Lemma X4_success_without_credentials_witness :
  fst (Credentials hollow_success) = Panicked /\
  nextRefresh (this (snd (Credentials hollow_success))) = time.Unix_at 3300 /\
  fst (Credentials (snd (Credentials hollow_success))) = Panicked /\
  requests (world (snd (Credentials (snd (Credentials hollow_success)))))
    = requests (world (snd (Credentials hollow_success))).
Proof.
  destruct (X4_success_without_credentials hollow_success
              eq_refl eq_refl eq_refl) as (H1 & H2 & H3).
  split; [exact H1|]. split; [rewrite H2; reflexivity|].
  exact (H3 (world (snd (Credentials hollow_success))) eq_refl).
Defined.

(** One failed call under a steady clock and a service that is down
    keeps the struct in the state the hypotheses of X5 describe. *)
Lemma failed_call_step (m : Machine) :
  steady (clock (world m)) -> down (service (world m)) -> due m = true ->
  let m1 := snd (Credentials m) in
  (exists e, fst (Credentials m) = Returned (None, Some e)) /\
  clock (world m1) = clock (world m) /\
  service (world m1) = service (world m) /\
  nextRefresh (this m1) = nextRefresh (this m) /\
  length (requests (world m1)) = S (length (requests (world m))) /\
  due m1 = true.
Proof.
  intros St Dn D. cbv zeta. rewrite Credentials_run, D. cbv zeta.
  destruct (snd (refresh_reply (entered m))) as [e|] eqn:E.
  - cbn [fst snd this world clock service requests wrote sent tick
           with_role nextRefresh].
    split; [exists e; reflexivity|].
    repeat split.
    + rewrite length_app. cbn. lia.
    + unfold due in *.
      cbn [this world clock reads wrote sent tick with_role nextRefresh].
      apply (After_later _ _ _ D). apply St. lia.
  - exfalso. unfold refresh_reply in E. exact (Dn _ _ E).
Qed.

(** X5: while the service is down and the clock does not step back,
    every one of [n] calls in a row that start with a due call fails
    with an error, each sends one request, and [nextRefresh] stays where
    it was: the provider retries on every call and never backs off. *)
Theorem X5_service_down_retries_every_call (n : nat) (m : Machine) :
  steady (clock (world m)) -> down (service (world m)) -> due m = true ->
  Forall (fun o => exists e, o = Returned (None, Some e)) (fst (poll n m)) /\
  length (fst (poll n m)) = n /\
  nextRefresh (this (snd (poll n m))) = nextRefresh (this m) /\
  length (requests (world (snd (poll n m)))) =
    (length (requests (world m)) + n)%nat.
Proof.
  revert m. induction n as [|n IH]; intros m St Dn D.
  - cbn. repeat split; [constructor | lia].
  - destruct (failed_call_step m St Dn D) as ([e He] & Hc & Hs & Hn & Hr & D1).
    cbn [poll]. destruct (Credentials m) as [o m1] eqn:EC.
    cbn [fst snd] in *. subst o.
    rewrite <- Hc in St. rewrite <- Hs in Dn.
    destruct (IH m1 St Dn D1) as (F & L & N & R).
    cbn [fst snd]. repeat split.
    + constructor; [exists e; reflexivity | exact F].
    + cbn. rewrite L. reflexivity.
    + rewrite N. exact Hn.
    + rewrite R, Hr. lia.
Qed.

Lemma X5_service_down_retries_every_call_witness :
  Forall (fun o => exists e, o = Returned (None, Some e))
    (fst (poll 3 outage)) /\
  length (fst (poll 3 outage)) = 3%nat /\
  nextRefresh (this (snd (poll 3 outage))) = time.zero /\
  length (requests (world (snd (poll 3 outage)))) = 3%nat.
Proof.
  apply (X5_service_down_retries_every_call 3 outage).
  - intros i j _. cbn. unfold clock_script.
    destruct i, j; apply After_irrefl.
  - intros k q. cbn. unfold service_script. destruct k; discriminate.
  - reflexivity.
Defined.

(** X6: while every clock reading stays at or before [nextRefresh], [n]
    calls in a row on a struct that holds a triple all return that
    triple, send nothing to the service and leave the struct as it
    was. *)
Theorem X6_cache_serves_every_call_in_window
  (n : nat) (m : Machine) (c : aws.Credentials) :
  cached (this m) = Some c ->
  (forall i : nat, (reads (world m) <= i)%nat ->
     time.After (clock (world m) i) (nextRefresh (this m)) = false) ->
  fst (poll n m) = repeat (Returned (Some c, None)) n /\
  this (snd (poll n m)) = this m /\
  requests (world (snd (poll n m))) = requests (world m).
Proof.
  revert m. induction n as [|n IH]; intros m C W.
  - cbn. repeat split.
  - assert (D : due m = false) by (apply W; lia).
    pose proof (Credentials_run m) as E. rewrite D, C in E.
    cbn [poll]. rewrite E.
    destruct (IH (entered m) C) as (F & T & R).
    { intros i Hi. apply W. cbn in Hi. lia. }
    cbn [fst snd repeat]. rewrite F, T, R. repeat split.
Qed.

Lemma X6_cache_serves_every_call_in_window_witness :
  let c := {| aws.AccessKeyID := "AK1"%string;
              aws.SecretAccessKey := "SK1"%string;
              aws.SessionToken := "TOK1"%string |} in
  let m := second_use (clock_script [100; 1000; 3200] 3300) in
  fst (poll 4 m) = repeat (Returned (Some c, None)) 4 /\
  this (snd (poll 4 m)) = this m /\
  requests (world (snd (poll 4 m))) = requests (world m).
Proof.
  cbv zeta.
  apply (X6_cache_serves_every_call_in_window 4
           (second_use (clock_script [100; 1000; 3200] 3300))).
  - reflexivity.
  - intros i _. cbn. unfold clock_script.
    destruct i as [|[|[|i]]]; try reflexivity.
    destruct i; reflexivity.
Defined.

(** Whether the call after a successful refresh is due, in nanoseconds. *)
Lemma due_after_success (m : Machine) (w2 : World) :
  due m = true ->
  fst (Refresh (entered m)) = Returned None ->
  wellformed (clock (world m) (S (S (reads (world m))))) ->
  min_int64 + 5 * time.Minute <= Duration (this m) <= max_int64 ->
  0 <= time.nsec (clock w2 (reads w2)) < 10 ^ 9 ->
  (due {| this := this (snd (Credentials m)); world := w2 |} = true <->
   instant (clock (world m) (S (S (reads (world m)))))
   + Duration (this m) - 5 * time.Minute
   < instant (clock w2 (reads w2))).
Proof.
  intros D H W R T2. unfold due. cbn [this world].
  rewrite (nextRefresh_after_success m D H).
  rewrite (After_instant _ _ T2 (scheduled_nsec m W R)).
  rewrite (scheduled_instant m W R). reflexivity.
Qed.

(** X7: after a call to [Credentials] whose refresh succeeded, with the
    clock reading taken after the refresh at instant T and [Duration]
    free of overflow, the next call is due, and so contacts the service,
    if and only if its clock reading is strictly later than
    T + Duration - 5 minutes; up to and including that instant it sends
    nothing. *)
Theorem X7_refresh_window (m : Machine) (w2 : World) :
  due m = true ->
  fst (Refresh (entered m)) = Returned None ->
  let T := clock (world m) (S (S (reads (world m)))) in
  let t2 := clock w2 (reads w2) in
  let m2 := {| this := this (snd (Credentials m)); world := w2 |} in
  wellformed T ->
  min_int64 + 5 * time.Minute <= Duration (this m) <= max_int64 ->
  0 <= time.nsec t2 < 10 ^ 9 ->
  ((exists q,
      requests (world (snd (Credentials m2))) = requests w2 ++ [q]) <->
   instant T + Duration (this m) - 5 * time.Minute < instant t2) /\
  (instant t2 <= instant T + Duration (this m) - 5 * time.Minute ->
   requests (world (snd (Credentials m2))) = requests w2).
Proof.
  intros D H. cbv zeta. intros W R T2.
  pose proof (due_after_success m w2 D H W R T2) as I.
  set (m2 := {| this := this (snd (Credentials m)); world := w2 |}) in *.
  split; [split|].
  - intros [q Hq]. apply I. destruct (due m2) eqn:D2; [reflexivity|].
    rewrite (Credentials_not_due_sends_none m2 D2) in Hq.
    exfalso. exact (app_one_neq _ _ Hq).
  - intros L. apply (Credentials_due_sends_one m2). apply I. exact L.
  - intros L. apply (Credentials_not_due_sends_none m2).
    destruct (due m2) eqn:D2; [|reflexivity].
    pose proof (proj1 I eq_refl). lia.
Qed.

Lemma X7_refresh_window_witness :
  requests (world (snd (Credentials
    {| this := this (snd (Credentials first_use));
       world := world_of (clock_script [] 3300) ("box"%string, None)
                  (service_script []) |}))) = [] /\
  exists q,
    requests (world (snd (Credentials
      {| this := this (snd (Credentials first_use));
         world := world_of (clock_script [] 3301) ("box"%string, None)
                    (service_script []) |}))) = [] ++ [q].
Proof.
  split.
  - apply (proj2 (X7_refresh_window first_use
             (world_of (clock_script [] 3300) ("box"%string, None)
                (service_script []))
             eq_refl eq_refl
             ltac:(vm_compute; repeat split; discriminate)
             ltac:(vm_compute; split; discriminate)
             ltac:(vm_compute; split; [discriminate | reflexivity]))).
    vm_compute. discriminate.
  - apply (proj1 (X7_refresh_window first_use
             (world_of (clock_script [] 3301) ("box"%string, None)
                (service_script []))
             eq_refl eq_refl
             ltac:(vm_compute; repeat split; discriminate)
             ltac:(vm_compute; split; discriminate)
             ltac:(vm_compute; split; [discriminate | reflexivity]))).
    vm_compute. reflexivity.
Defined.



(** X9: two invocations of [Refresh] that get the same answer from
    [os.Hostname] send the same session name if and only if their clock
    readings fall into the same Unix second: the name tells refreshes
    from one host apart by the second, and no finer. *)
Theorem X9_session_name_per_second (m1 m2 : Machine) (q1 q2 : request) :
  hostname (world m1) = hostname (world m2) ->
  requests (world (snd (Refresh m1))) = requests (world m1) ++ [q1] ->
  requests (world (snd (Refresh m2))) = requests (world m2) ++ [q2] ->
  (sts.RoleSessionName (snd q1) = sts.RoleSessionName (snd q2) <->
   time.Unix (clock (world m1) (reads (world m1))) =
   time.Unix (clock (world m2) (reads (world m2)))).
Proof.
  rewrite !Refresh_run. cbn [snd world requests sent tick].
  intros Hh H1 H2. apply app_one_inj in H1, H2. subst q1 q2.
  cbn [snd refresh_request sts.RoleSessionName].
  unfold session_host. rewrite Hh.
  set (h := match snd (hostname (world m2)) with
            | Some _ => "unknown"%string
            | None => fst (hostname (world m2))
            end).
  unfold session_name. split.
  - intros E. injection E as E.
    apply (append_inj_l h) in E. injection E as E.
    apply fmt_d_inj. exact E.
  - intros E. rewrite E. reflexivity.
Qed.

Lemma X9_session_name_per_second_witness :
  sts.RoleSessionName (snd (refresh_request holder)) =
  sts.RoleSessionName
    (snd (refresh_request (second_use (clock_script [] 3301)))).
Proof.
  apply (proj2 (X9_session_name_per_second holder
                  (second_use (clock_script [] 3301)) _ _
                  eq_refl eq_refl eq_refl)).
  reflexivity.
Defined.

(** X10: [Refresh] does not check [Duration]: whenever it is shorter
    than one second in either direction, in particular when it is zero,
    the request asks for a validity of 0 seconds. *)
Theorem X10_sub_second_duration_sends_zero (m : Machine) (q : request) :
  Z.abs (Duration (this m)) < time.Second ->
  requests (world (snd (Refresh m))) = requests (world m) ++ [q] ->
  sts.DurationSeconds (snd q) = Some 0.
Proof.
  intros Hd. rewrite Refresh_run. cbn [snd world requests sent tick].
  intros Hq. apply app_one_inj in Hq. subst q.
  cbn [snd refresh_request sts.DurationSeconds].
  assert (Hs : time.Second = 10 ^ 9) by reflexivity. rewrite Hs in *.
  destruct (quot_truncates (Duration (this m)) (10 ^ 9) ltac:(lia))
    as (_ & _ & _ & K).
  assert (Z0 : Z.quot (Duration (this m)) (10 ^ 9) = 0) by lia.
  rewrite Z0. reflexivity.
Qed.

Lemma X10_sub_second_duration_sends_zero_witness :
  sts.DurationSeconds (snd (refresh_request unset_duration)) = Some 0.
Proof.
  apply (X10_sub_second_duration_sends_zero unset_duration).
  - vm_compute. reflexivity.
  - reflexivity.
Defined.

(** X11: a call to [Credentials] hands the logger one line, the fixed
    text followed by the error and a newline, exactly when a refresh was
    due and failed; in every other case, and in every direct call of
    [Refresh], nothing is logged. *)
Theorem X11_only_failed_refresh_is_logged (m : Machine) :
  logged (world (snd (Refresh m))) = logged (world m) /\
  logged (world (snd (Credentials m))) =
    (if due m then
       match fst (Refresh (entered m)) with
       | Returned (Some e) =>
           logged (world m)
           ++ [("TempCredentialsProvider failed to refresh credentials: "
                ++ e ++ newline)%string]
       | _ => logged (world m)
       end
     else logged (world m)).
Proof.
  split.
  - rewrite Refresh_run. reflexivity.
  - run_Credentials m.
    + rewrite Refresh_run, Herr. reflexivity.
    + rewrite Refresh_run, Herr. destruct (cached _); reflexivity.
    + destruct (cached _); reflexivity.
Qed.
